(** * kg-gen: entity and relation extraction steps

    Shallow embedding of [src/kg_gen/steps/_1_get_entities.py] and
    [src/kg_gen/steps/_2_get_relations.py].

    Both functions receive the prompting framework as their first argument
    ([dspy]); the embedding keeps it as an argument: a function from the
    chosen signature class and the keyword parameters to the outcome of
    calling [dspy.Predict(Signature)] on them, which either returns the
    declared output field (a [list[dict]]) or raises.  Warnings issued through
    [warnings.warn] are collected, in order, in a log returned next to the
    result.

    The output fields are declared [list[dict]] and hold decoded JSON: the
    items are objects with string keys, whose values are arbitrary. *)

From Stdlib Require Import ZArith.
From stdpp Require Import gmap strings list fin_maps.

#[local] Set Warnings "-register-all".

Local Open Scope string_scope.
Local Open Scope list_scope.

(** ** Python values

    The values a decoded model answer is made of.  JSON numbers are the
    integers; objects have string keys and are kept as association lists in
    insertion order, every key bound once. *)

Inductive pyval : Type :=
| PNone
| PBool (b : bool)
| PInt (z : Z)
| PStr (s : string)
| PList (l : list pyval)
| PDict (d : list (string * pyval)).

Definition pydict : Type := list (string * pyval).

(** Exceptions, by class.  [ValidationError] carries one entry per offending
    field, as pydantic reports them; [Exception] stands for any other
    subclass of Python's [Exception]. *)

Inductive field_error : Type :=
| Missing (field : string)
| StringType (field : string).

Inductive exn : Type :=
| KeyError (key : string)
| TypeError (msg : string)
| ValidationError (errors : list field_error)
| Exception (msg : string).

Inductive outcome (A : Type) : Type :=
| Returned (a : A)
| Raised (e : exn).
Arguments Returned {A} a.
Arguments Raised {A} e.

(** The warnings the two functions issue, all of category [UserWarning]:
    [f"Extraction failed: {e}"], [f"Invalid entity {item!r}: {e}"] and
    [f"Invalid relation {item!r}: {e}"], kept by their parts. *)

Inductive warning : Type :=
| ExtractionFailed (e : exn)
| InvalidEntity (item : pydict) (e : exn)
| InvalidRelation (item : pydict) (e : exn).

(** Truth value of a Python object, as [if x:] tests it. *)

Definition truthy (v : pyval) : bool :=
  match v with
  | PNone => false
  | PBool b => b
  | PInt z => negb (z =? 0)%Z
  | PStr s => negb (String.eqb s "")
  | PList l => match l with [] => false | _ :: _ => true end
  | PDict d => match d with [] => false | _ :: _ => true end
  end.

(** [if xs:] for an [Optional[List[...]]] argument: [None] and the empty
    list are both false. *)

Definition given {A : Type} (xs : option (list A)) : bool :=
  match xs with
  | Some (_ :: _) => true
  | _ => false
  end.

(** [if s:] for an [Optional[str]]. *)

Definition str_given (s : option string) : bool :=
  match s with
  | Some t => negb (String.eqb t "")
  | None => false
  end.

(** [d.get(k)]: the value bound to [k], if any. *)

Fixpoint dict_get (d : pydict) (k : string) : option pyval :=
  match d with
  | [] => None
  | (k', v) :: d' => if String.eqb k' k then Some v else dict_get d' k
  end.

(** [d[k]]: raises [KeyError] on a missing key. *)

Definition dict_getitem (d : pydict) (k : string) : outcome pyval :=
  match dict_get d k with
  | Some v => Returned v
  | None => Raised (KeyError k)
  end.

(** [x in xs] on a list of strings. *)

Definition contains (x : string) (xs : list string) : bool :=
  existsb (String.eqb x) xs.

(** *** Dictionaries keyed by arbitrary values

    [entity_types] of [get_entities] is keyed by whatever the item holds
    under ["entity"].  Lists and dicts are unhashable; among the hashable
    values [True == 1] and [False == 0].  Assigning to a key that is
    already present keeps the key object and replaces its value. *)

Definition hashable (v : pyval) : bool :=
  match v with
  | PList _ | PDict _ => false
  | _ => true
  end.

Definition key_eqb (a b : pyval) : bool :=
  match a, b with
  | PNone, PNone => true
  | PStr s, PStr t => String.eqb s t
  | PBool x, PBool y => Bool.eqb x y
  | PInt x, PInt y => (x =? y)%Z
  | PBool x, PInt y | PInt y, PBool x => ((if x then 1 else 0) =? y)%Z
  | _, _ => false
  end.

Definition valdict : Type := list (pyval * pyval).

Fixpoint valdict_put (d : valdict) (k v : pyval) : valdict :=
  match d with
  | [] => [(k, v)]
  | (k', v') :: d' =>
      if key_eqb k' k then (k', v) :: d' else (k', v') :: valdict_put d' k v
  end.

(** [d[k] = v] *)

Definition valdict_setitem (d : valdict) (k v : pyval) : outcome valdict :=
  if hashable k then Returned (valdict_put d k v)
  else Raised (TypeError "unhashable type").

Definition keys (d : valdict) : list pyval := map fst d.

(** ** _1_get_entities.py *)

Inductive EntitiesSignature : Type :=
| TextEntities
| ConversationEntities
| TextEntitiesWithTypes
| ConversationEntitiesWithTypes.

(** A few-shot example, with the two attributes [get_entities] reads. *)

Record EntitiesExample : Type := {
  ee_source_text : pyval;
  ee_entities : pyval
}.

(** [dspy.Example(source_text=..., entities=...)] *)

Definition entities_demo (example : EntitiesExample) : pyval :=
  PDict [("source_text", ee_source_text example);
         ("entities", ee_entities example)].

(** Lines 68-87: the signature class. *)

Definition entities_signature (node_types : option (list string))
    (is_conversation : bool) : EntitiesSignature :=
  if given node_types then
    if is_conversation then ConversationEntitiesWithTypes
    else TextEntitiesWithTypes
  else
    if is_conversation then ConversationEntities
    else TextEntities.

(** Lines 68-96: the keyword parameters of the call. *)

Definition entities_params (input_data : string)
    (node_types : option (list string)) (require_node_type : bool)
    (examples : option (list EntitiesExample)) : pydict :=
  let params :=
    if given node_types then
      [("source_text", PStr input_data);
       ("node_types", PList (map PStr (default [] node_types)));
       ("require_type", PBool require_node_type)]
    else
      [("source_text", PStr input_data)] in
  if given examples then
    params ++ [("demos", PList (map entities_demo (default [] examples)))]
  else params.

(** Lines 113-129: the loop over [result.entities], with the lists built so
    far as accumulators. *)

Fixpoint collect_entities (items : list pydict) (entities : list pyval)
    (entity_types : valdict) (log : list warning)
    : outcome (list pyval * valdict) * list warning :=
  match items with
  | [] => (Returned (entities, entity_types), log)
  | item :: rest =>
      match dict_getitem item "entity" with
      | Raised (ValidationError errs) =>
          collect_entities rest entities entity_types
            (log ++ [InvalidEntity item (ValidationError errs)])
      | Raised _ =>
          collect_entities rest entities entity_types log
      | Returned entity =>
          let entities := entities ++ [entity] in
          match dict_get item "type" with
          | Some ty =>
              if truthy ty then
                match valdict_setitem entity_types entity ty with
                | Returned entity_types =>
                    collect_entities rest entities entity_types log
                | Raised e => (Raised e, log)
                end
              else collect_entities rest entities entity_types log
          | None => collect_entities rest entities entity_types log
          end
      end
  end.

Definition get_entities
    (dspy : EntitiesSignature -> pydict -> outcome (list pydict))
    (input_data : string) (is_conversation : bool)
    (node_types : option (list string)) (require_node_type : bool)
    (examples : option (list EntitiesExample))
    : outcome (list pyval * option valdict) * list warning :=
  let Signature := entities_signature node_types is_conversation in
  let params :=
    entities_params input_data node_types require_node_type examples in
  match dspy Signature params with
  | Raised e => (Returned ([], None), [ExtractionFailed e])
  | Returned result_entities =>
      if given node_types then
        match collect_entities result_entities [] [] [] with
        | (Returned (entities, entity_types), log) =>
            (Returned (entities, Some entity_types), log)
        | (Raised e, log) => (Raised e, log)
        end
      else (Returned (map PDict result_entities, None), [])
  end.

(** ** _2_get_relations.py *)

(** Instances of the two pydantic models.  [RelationWithType] extends
    [Relation] with the optional [predicate_type]. *)

Inductive rel : Type :=
| Relation (subject predicate object : string)
| RelationWithType (subject predicate object : string)
    (predicate_type : option string).

Definition rel_subject (r : rel) : string :=
  match r with
  | Relation s _ _ | RelationWithType s _ _ _ => s
  end.

Definition rel_predicate (r : rel) : string :=
  match r with
  | Relation _ p _ | RelationWithType _ p _ _ => p
  end.

Definition rel_object (r : rel) : string :=
  match r with
  | Relation _ _ o | RelationWithType _ _ o _ => o
  end.

(** [rel.predicate_type] is only read behind [edge_types and ...], that is
    on instances of [RelationWithType]. *)

Definition rel_predicate_type (r : rel) : option string :=
  match r with
  | Relation _ _ _ => None
  | RelationWithType _ _ _ t => t
  end.

(** Validation of one field, in pydantic's default (lax) mode on decoded
    JSON: a [str] field takes a string and nothing else, a required field
    must be present, [Optional[str] = None] also takes [None] and absence.
    Keys that are not fields are ignored. *)

Definition str_field (item : pydict) (name : string)
    : list field_error + string :=
  match dict_get item name with
  | None => inl [Missing name]
  | Some (PStr s) => inr s
  | Some _ => inl [StringType name]
  end.

Definition optional_str_field (item : pydict) (name : string)
    : list field_error + option string :=
  match dict_get item name with
  | None | Some PNone => inr None
  | Some (PStr s) => inr (Some s)
  | Some _ => inl [StringType name]
  end.

Definition errors_of {A : Type} (r : list field_error + A)
    : list field_error :=
  match r with
  | inl errs => errs
  | inr _ => []
  end.

(** Building a [Relation] from the keywords of [item]: every field is validated and the errors of all of
    them are reported together. *)

Definition new_Relation (item : pydict) : outcome rel :=
  match str_field item "subject", str_field item "predicate",
        str_field item "object" with
  | inr s, inr p, inr o => Returned (Relation s p o)
  | fs, fp, fo =>
      Raised (ValidationError (errors_of fs ++ errors_of fp ++ errors_of fo))
  end.

(** Building a [RelationWithType] from the keywords of [item]. *)

Definition new_RelationWithType (item : pydict) : outcome rel :=
  match str_field item "subject", str_field item "predicate",
        str_field item "object",
        optional_str_field item "predicate_type" with
  | inr s, inr p, inr o, inr t => Returned (RelationWithType s p o t)
  | fs, fp, fo, ft =>
      Raised (ValidationError
                (errors_of fs ++ errors_of fp ++ errors_of fo ++ errors_of ft))
  end.

Inductive RelationsSignature : Type :=
| ExtractTextRelations
| ExtractConversationRelations
| ExtractTextRelationsWithTypes
| ExtractConversationRelationsWithTypes.

Record RelationsExample : Type := {
  re_source_text : pyval;
  re_relations : pyval
}.

(** [dspy.Example(source_text=..., relations=...)] *)

Definition relations_demo (example : RelationsExample) : pyval :=
  PDict [("source_text", re_source_text example);
         ("relations", re_relations example)].

(** Lines 83-101: the signature class. *)

Definition relations_signature (edge_types : option (list string))
    (is_conversation : bool) : RelationsSignature :=
  if given edge_types then
    if is_conversation then ExtractConversationRelationsWithTypes
    else ExtractTextRelationsWithTypes
  else
    if is_conversation then ExtractConversationRelations
    else ExtractTextRelations.

(** Lines 83-115: the keyword parameters of the call. *)

Definition relations_params (input_data : string) (entities : list string)
    (edge_types : option (list string)) (require_edge_type : bool)
    (examples : option (list RelationsExample)) : pydict :=
  let params :=
    if given edge_types then
      [("source_text", PStr input_data);
       ("entities", PList (map PStr entities));
       ("edge_types", PList (map PStr (default [] edge_types)));
       ("require_type", PBool require_edge_type)]
    else
      [("source_text", PStr input_data);
       ("entities", PList (map PStr entities))] in
  if given examples then
    params ++ [("demos", PList (map relations_demo (default [] examples)))]
  else params.

Definition triple : Type := string * string * string.

(** Lines 133-136: the model class is chosen by [edge_types]. *)

Definition validate_relation (edge_types : option (list string))
    (item : pydict) : outcome rel :=
  if given edge_types then new_RelationWithType item else new_Relation item.

(** Lines 131-151: the loop over [result.relations]. *)

Fixpoint collect_relations (edge_types : option (list string))
    (entities : list string) (items : list pydict)
    (relations : list triple) (edge_type_map : gmap string string)
    (log : list warning)
    : list triple * gmap string string * list warning :=
  match items with
  | [] => (relations, edge_type_map, log)
  | item :: rest =>
      match validate_relation edge_types item with
      | Raised (ValidationError errs) =>
          collect_relations edge_types entities rest relations edge_type_map
            (log ++ [InvalidRelation item (ValidationError errs)])
      | Raised _ =>
          collect_relations edge_types entities rest relations edge_type_map
            log
      | Returned r =>
          if contains (rel_subject r) entities
             && contains (rel_object r) entities then
            let relations :=
              relations ++ [(rel_subject r, rel_predicate r, rel_object r)] in
            if given edge_types && str_given (rel_predicate_type r) then
              collect_relations edge_types entities rest relations
                (<[rel_predicate r := default "" (rel_predicate_type r)]>
                   edge_type_map) log
            else
              collect_relations edge_types entities rest relations
                edge_type_map log
          else
            collect_relations edge_types entities rest relations
              edge_type_map log
      end
  end.

Definition get_relations
    (dspy : RelationsSignature -> pydict -> outcome (list pydict))
    (input_data : string) (entities : list string) (is_conversation : bool)
    (edge_types : option (list string)) (require_edge_type : bool)
    (examples : option (list RelationsExample))
    : list triple * option (gmap string string) * list warning :=
  let Signature := relations_signature edge_types is_conversation in
  let params :=
    relations_params input_data entities edge_types require_edge_type
      examples in
  match dspy Signature params with
  | Raised e => ([], None, [ExtractionFailed e])
  | Returned result_relations =>
      let '(relations, edge_type_map, log) :=
        collect_relations edge_types entities result_relations [] ∅ [] in
      (relations, if given edge_types then Some edge_type_map else None, log)
  end.

(** ** Sample data *)

Definition alice_knows_bob : pydict :=
  [("subject", PStr "Alice"); ("predicate", PStr "knows");
   ("object", PStr "Bob"); ("predicate_type", PStr "social")].

Definition alice_knows_carol : pydict :=
  [("subject", PStr "Alice"); ("predicate", PStr "knows");
   ("object", PStr "Carol")].

Definition no_object : pydict :=
  [("subject", PStr "Alice"); ("predicate", PInt 3)].

Definition alice_person : pydict :=
  [("entity", PStr "Alice"); ("type", PStr "Person")].

Definition xyz_untyped : pydict := [("entity", PStr "XYZ")].

Definition type_only : pydict := [("type", PStr "Person")].

Definition bob_untyped : pydict := [("entity", PStr "Bob")].

(** A framework whose call always returns [items], and one whose call
    always raises. *)

Definition answering {S : Type} (items : list pydict)
    : S -> pydict -> outcome (list pydict) :=
  fun _ _ => Returned items.

Definition failing {S : Type} (e : exn)
    : S -> pydict -> outcome (list pydict) :=
  fun _ _ => Raised e.

(** ** The list of warnings a run over [items] is expected to log: one per
    item the model class rejects, in order. *)

Definition conforms (edge_types : option (list string)) (item : pydict)
    : bool :=
  match validate_relation edge_types item with
  | Returned _ => true
  | Raised _ => false
  end.

Definition rejection (edge_types : option (list string)) (item : pydict)
    : list warning :=
  match validate_relation edge_types item with
  | Returned _ => []
  | Raised e => [InvalidRelation item e]
  end.

Definition rejections (edge_types : option (list string))
    (items : list pydict) : list warning :=
  flat_map (rejection edge_types) items.

(** ** Invariants of the loop of [get_relations] *)

Definition endpoints_in (entities : list string) (t : triple) : Prop :=
  t.1.1 ∈ entities ∧ t.2 ∈ entities.

(** Every entry of the predicate map is backed by an item of [all] that
    validated with that predicate and that type, and whose triple is in
    the list of relations. *)

Definition backed (edge_types : option (list string)) (all : list pydict)
    (relations : list triple) (edge_type_map : gmap string string) : Prop :=
  ∀ p t, edge_type_map !! p = Some t →
    t ≠ "" ∧
    ∃ item s o,
      item ∈ all ∧
      validate_relation edge_types item
        = Returned (RelationWithType s p o (Some t)) ∧
      (s, p, o) ∈ relations.

(** ** The schemas of the two model classes, field by field

    What lines 9-18 of [_2_get_relations.py] declare, stated on the item
    itself and without running the validation: [Relation] has the three
    required fields [subject], [predicate] and [object], each a [str];
    [RelationWithType] adds [predicate_type], an [Optional[str]] that
    defaults to [None]. *)

Definition is_str (v : option pyval) : bool :=
  match v with
  | Some (PStr _) => true
  | _ => false
  end.

Definition is_optional_str (v : option pyval) : bool :=
  match v with
  | None | Some PNone | Some (PStr _) => true
  | Some _ => false
  end.

Definition required_fields : list string :=
  ["subject"; "predicate"; "object"].

Definition plain_triple (item : pydict) : bool :=
  forallb (λ field, is_str (dict_get item field)) required_fields.

Definition triple_with_type (item : pydict) : bool :=
  plain_triple item && is_optional_str (dict_get item "predicate_type").

(** The schema an item is expected to follow: the plain triple without
    [edge_types], the triple with its predicate type with them. *)

Definition expected_schema (edge_types : option (list string))
    (item : pydict) : bool :=
  if given edge_types then triple_with_type item else plain_triple item.

(** The item a warning about a relation names. *)

Definition warned_item (w : warning) : option pydict :=
  match w with
  | InvalidRelation item _ => Some item
  | _ => None
  end.

(** ** What the source declares and what the loops compute, item by item *)

(** The input fields the signature classes declare (lines 14-44 of
    [_1_get_entities.py], lines 21-57 of [_2_get_relations.py]), in the
    order of declaration, inherited fields first. *)

Definition entities_input_fields (Signature : EntitiesSignature)
    : list string :=
  match Signature with
  | TextEntities | ConversationEntities => ["source_text"]
  | TextEntitiesWithTypes | ConversationEntitiesWithTypes =>
      ["source_text"; "node_types"; "require_type"]
  end.

Definition relations_input_fields (Signature : RelationsSignature)
    : list string :=
  match Signature with
  | ExtractTextRelations | ExtractConversationRelations =>
      ["source_text"; "entities"]
  | ExtractTextRelationsWithTypes | ExtractConversationRelationsWithTypes =>
      ["source_text"; "entities"; "edge_types"; "require_type"]
  end.

(** An item of the typed path of [get_entities] on which
    [entity_types[entity] = item["type"]] is reached with an unhashable
    [entity]. *)

Definition unhashable_entity (item : pydict) : bool :=
  match dict_get item "entity", dict_get item "type" with
  | Some entity, Some ty => truthy ty && negb (hashable entity)
  | _, _ => false
  end.

(** The triple one iteration of the loop of [get_relations] appends, if it
    appends one (lines 132-149). *)

Definition kept_triple (edge_types : option (list string))
    (entities : list string) (item : pydict) : option triple :=
  match validate_relation edge_types item with
  | Returned r =>
      if contains (rel_subject r) entities
         && contains (rel_object r) entities
      then Some (rel_subject r, rel_predicate r, rel_object r)
      else None
  | Raised _ => None
  end.

(** The entry one iteration assigns in [edge_type_map], if it assigns one
    (lines 132-151). *)

Definition recorded_type (edge_types : option (list string))
    (entities : list string) (item : pydict) : option (string * string) :=
  match validate_relation edge_types item with
  | Returned r =>
      if contains (rel_subject r) entities
         && contains (rel_object r) entities
         && given edge_types && str_given (rel_predicate_type r)
      then Some (rel_predicate r, default "" (rel_predicate_type r))
      else None
  | Raised _ => None
  end.

(** * Properties *)

Lemma contains_elem_of (x : string) (xs : list string) :
  contains x xs = true ↔ x ∈ xs.
Proof.
  unfold contains. rewrite existsb_exists. split.
  - intros (y & Hin & Heq). apply String.eqb_eq in Heq. subst y.
    by apply list_elem_of_In.
  - intros Hin. exists x. split; [by apply list_elem_of_In|].
    apply String.eqb_refl.
Qed.

(** Building a model instance fails with [ValidationError] and with nothing
    else. *)

Lemma new_Relation_raises (item : pydict) (e : exn) :
  new_Relation item = Raised e → ∃ errs, e = ValidationError errs.
Proof.
  unfold new_Relation.
  destruct (str_field item "subject"), (str_field item "predicate"),
    (str_field item "object"); intros [= <-]; eauto.
Qed.

Lemma new_RelationWithType_raises (item : pydict) (e : exn) :
  new_RelationWithType item = Raised e → ∃ errs, e = ValidationError errs.
Proof.
  unfold new_RelationWithType.
  destruct (str_field item "subject"), (str_field item "predicate"),
    (str_field item "object"), (optional_str_field item "predicate_type");
    intros [= <-]; eauto.
Qed.

Lemma validate_relation_raises edge_types (item : pydict) (e : exn) :
  validate_relation edge_types item = Raised e →
  ∃ errs, e = ValidationError errs.
Proof.
  unfold validate_relation. destruct (given edge_types).
  - apply new_RelationWithType_raises.
  - apply new_Relation_raises.
Qed.

Lemma validate_relation_typed edge_types (item : pydict) (r : rel) :
  given edge_types = true →
  validate_relation edge_types item = Returned r →
  ∃ s p o t, r = RelationWithType s p o t.
Proof.
  unfold validate_relation, new_RelationWithType. intros ->.
  destruct (str_field item "subject"), (str_field item "predicate"),
    (str_field item "object"), (optional_str_field item "predicate_type");
    intros [= <-]; eauto.
Qed.

(** ** The loop of [get_relations] *)

Section relations_loop.
Variable edge_types : option (list string).
Variable entities : list string.

Local Abbreviation collect := (collect_relations edge_types entities).

(** One iteration, by the outcome of the validation. *)
Local Ltac iteration Hv :=
  cbn [collect_relations];
  destruct (validate_relation edge_types _) as [r|e] eqn:Hv;
  [ destruct (contains (rel_subject r) entities) eqn:Hs;
    [ destruct (contains (rel_object r) entities) eqn:Ho;
      [ destruct (given edge_types && str_given (rel_predicate_type r))
          eqn:Ht |] |];
    cbn [andb]
  | destruct (validate_relation_raises _ _ _ Hv) as [errs ->] ].

Lemma collect_relations_endpoints items relations edge_type_map log :
  Forall (endpoints_in entities) relations →
  Forall (endpoints_in entities)
    (collect items relations edge_type_map log).1.1.
Proof.
  revert relations edge_type_map log.
  induction items as [|item rest IH]; intros relations m log Hacc;
    [done|].
  iteration Hv; apply IH; try done.
  all: apply Forall_app; split; [done|].
  all: apply Forall_singleton; split; by apply contains_elem_of.
Qed.

(** The log grows by exactly the rejections, whatever the accumulators. *)
Lemma collect_relations_log items relations edge_type_map log :
  (collect items relations edge_type_map log).2
  = log ++ rejections edge_types items.
Proof.
  revert relations edge_type_map log.
  induction items as [|item rest IH]; intros relations m log.
  { cbn. by rewrite app_nil_r. }
  unfold rejections. cbn [flat_map]. unfold rejection at 1.
  iteration Hv; rewrite IH; try done.
  by rewrite <- app_assoc.
Qed.

(** Rejected items leave the two accumulators alone. *)
Lemma collect_relations_filter items relations edge_type_map log log' :
  (collect items relations edge_type_map log).1
  = (collect (List.filter (conforms edge_types) items) relations
       edge_type_map log').1.
Proof.
  revert relations edge_type_map log log'.
  induction items as [|item rest IH]; intros relations m log log';
    [done|].
  cbn [List.filter]. unfold conforms at 1.
  iteration Hv; cbn [collect_relations];
    rewrite ?Hv, ?Hs, ?Ho, ?Ht; cbn [andb]; apply IH.
Qed.

Lemma collect_relations_backed all items relations edge_type_map log :
  items ⊆ all →
  backed edge_types all relations edge_type_map →
  backed edge_types all (collect items relations edge_type_map log).1.1
    (collect items relations edge_type_map log).1.2.
Proof.
  revert relations edge_type_map log.
  induction items as [|item rest IH]; intros relations m log Hsub Hacc;
    [done|].
  assert (Hitem : item ∈ all) by set_solver.
  assert (Hrest : rest ⊆ all) by set_solver.
  iteration Hv; apply IH; try done.
  - (* kept, typed *)
    apply andb_prop in Ht as [Hg Hty].
    destruct (validate_relation_typed _ _ _ Hg Hv) as (s & p & o & t & ->).
    cbn in *. destruct t as [t|]; [|done]. cbn.
    intros p' t'. rewrite lookup_insert. case_decide as Hp.
    + intros [= <-]. subst p'. split.
      * intros ->. done.
      * exists item, s, o. split_and!; [done|done|set_solver].
    + intros Hm. destruct (Hacc _ _ Hm) as (Hne & it & s' & o' & ? & ? & ?).
      split; [done|]. exists it, s', o'. split_and!; [done|done|set_solver].
  - (* kept, no type recorded *)
    intros p' t' Hm.
    destruct (Hacc _ _ Hm) as (Hne & it & s' & o' & ? & ? & ?).
    split; [done|]. exists it, s', o'. split_and!; [done|done|set_solver].
Qed.
End relations_loop.

(** The loop of [get_relations] reads [edge_types] through its truth value
    only. *)

Lemma collect_relations_given edge_types edge_types' entities items
    relations edge_type_map log :
  given edge_types = given edge_types' →
  collect_relations edge_types entities items relations edge_type_map log
  = collect_relations edge_types' entities items relations edge_type_map log.
Proof.
  intros Hg. revert relations edge_type_map log.
  induction items as [|item rest IH]; intros relations m log; [done|].
  cbn [collect_relations]. unfold validate_relation. rewrite Hg.
  destruct (if given edge_types' then _ else _) as [r|[]]; try apply IH.
  destruct (_ && _); [|apply IH].
  destruct (_ && _); apply IH.
Qed.

(** The validation accepts exactly the items that follow the schema. *)

Lemma new_Relation_schema (item : pydict) :
  (∃ r, new_Relation item = Returned r) ↔ plain_triple item = true.
Proof.
  unfold new_Relation, str_field, plain_triple, required_fields, forallb,
    is_str.
  destruct (dict_get item "subject") as [[]|],
    (dict_get item "predicate") as [[]|],
    (dict_get item "object") as [[]|]; cbn;
    (split; intros H; first [done | by destruct H | eauto]).
Qed.

Lemma new_RelationWithType_schema (item : pydict) :
  (∃ r, new_RelationWithType item = Returned r) ↔
  triple_with_type item = true.
Proof.
  unfold new_RelationWithType, str_field, optional_str_field,
    triple_with_type, plain_triple, required_fields, forallb, is_str,
    is_optional_str.
  destruct (dict_get item "subject") as [[]|],
    (dict_get item "predicate") as [[]|],
    (dict_get item "object") as [[]|],
    (dict_get item "predicate_type") as [[]|]; cbn;
    (split; intros H; first [done | by destruct H | eauto]).
Qed.

Lemma conforms_expected_schema edge_types (item : pydict) :
  conforms edge_types item = expected_schema edge_types item.
Proof.
  unfold conforms, expected_schema, validate_relation.
  destruct (given edge_types).
  - pose proof (new_RelationWithType_schema item) as [Hl Hr].
    destruct (new_RelationWithType item) as [r|e],
      (triple_with_type item); try done.
    + symmetry. apply Hl. eauto.
    + by destruct (Hr eq_refl).
  - pose proof (new_Relation_schema item) as [Hl Hr].
    destruct (new_Relation item) as [r|e], (plain_triple item); try done.
    + symmetry. apply Hl. eauto.
    + by destruct (Hr eq_refl).
Qed.

Lemma missing_field_off_schema edge_types (item : pydict) (field : string) :
  field ∈ required_fields → dict_get item field = None →
  expected_schema edge_types item = false.
Proof.
  intros Hfield Hmissing.
  assert (Hplain : plain_triple item = false).
  { unfold plain_triple. apply not_true_is_false. intros Hall.
    pose proof (proj1 (forallb_forall _ _) Hall field
                  (proj1 (list_elem_of_In _ _) Hfield)) as Hstr.
    cbn beta in Hstr. by rewrite Hmissing in Hstr. }
  unfold expected_schema, triple_with_type. rewrite Hplain.
  by destruct (given edge_types).
Qed.

(** The warnings about rejected items name them, one each and in order. *)

Lemma rejections_items edge_types (items : list pydict) :
  omap warned_item (rejections edge_types items)
  = List.filter (λ item, negb (conforms edge_types item)) items.
Proof.
  unfold rejections. induction items as [|item rest IH]; [done|].
  cbn [flat_map List.filter]. rewrite omap_app, IH.
  unfold rejection, conforms.
  by destruct (validate_relation edge_types item).
Qed.

Lemma rejections_length edge_types (items : list pydict) :
  length (rejections edge_types items)
  = length (List.filter (λ item, negb (conforms edge_types item)) items).
Proof.
  unfold rejections. induction items as [|item rest IH]; [done|].
  cbn [flat_map List.filter]. rewrite length_app, IH.
  unfold rejection, conforms.
  by destruct (validate_relation edge_types item).
Qed.

(** ** The loop of [get_entities] *)

Lemma valdict_put_keys (d : valdict) (k v k' : pyval) :
  k' ∈ keys (valdict_put d k v) → k' ∈ keys d ∨ k' = k.
Proof.
  unfold keys. induction d as [|[k0 v0] d IH]; cbn.
  - rewrite list_elem_of_singleton. auto.
  - destruct (key_eqb k0 k); cbn; [auto|].
    rewrite !elem_of_cons. intros [->|Hin]; [auto|].
    destruct (IH Hin); auto.
Qed.

Lemma collect_entities_keys items entities entity_types log
    entities' entity_types' log' :
  (∀ k, k ∈ keys entity_types → k ∈ entities) →
  collect_entities items entities entity_types log
    = (Returned (entities', entity_types'), log') →
  ∀ k, k ∈ keys entity_types' → k ∈ entities'.
Proof.
  revert entities entity_types log.
  induction items as [|item rest IH]; intros entities entity_types log Hacc.
  { cbn. by intros [= <- <- <-]. }
  cbn [collect_entities]. unfold dict_getitem, valdict_setitem.
  assert (Hgrow : ∀ k, k ∈ keys entity_types → ∀ x, k ∈ entities ++ [x]).
  { intros k Hk x. apply elem_of_app. left. by apply Hacc. }
  destruct (dict_get item "entity") as [entity|]; [|by apply IH].
  destruct (dict_get item "type") as [ty|]; [|by apply IH; auto].
  destruct (truthy ty); [|by apply IH; auto].
  destruct (hashable entity); [|done].
  apply IH. intros k Hk.
  destruct (valdict_put_keys _ _ _ _ Hk) as [Hold| ->]; [auto|].
  apply elem_of_app. right. by apply list_elem_of_singleton.
Qed.

(** No iteration of the loop of [get_entities] adds to the log. *)

Lemma collect_entities_log items entities entity_types log :
  (collect_entities items entities entity_types log).2 = log.
Proof.
  revert entities entity_types log.
  induction items as [|item rest IH]; intros entities entity_types log;
    [done|].
  cbn [collect_entities]. unfold dict_getitem, valdict_setitem.
  destruct (dict_get item "entity") as [entity|]; [|by apply IH].
  destruct (dict_get item "type") as [ty|]; [|by apply IH].
  destruct (truthy ty); [|by apply IH].
  destruct (hashable entity); [by apply IH|done].
Qed.

Lemma get_entities_typed_log dspy input_data is_conversation node_types
    require_node_type examples items :
  given node_types = true →
  dspy (entities_signature node_types is_conversation)
       (entities_params input_data node_types require_node_type examples)
    = Returned items →
  (get_entities dspy input_data is_conversation node_types
     require_node_type examples).2 = [].
Proof.
  intros Hg Hcall. unfold get_entities. rewrite Hcall, Hg.
  pose proof (collect_entities_log items [] [] []) as Hlog.
  by destruct (collect_entities items [] [] []) as [[[??]|?] ?].
Qed.

(** * Properties of the specification *)

(** C1: every triple returned by [get_relations] has its subject and its
    object in the list of entities the function was given. *)
Theorem get_relations_endpoints_known dspy input_data entities
    is_conversation edge_types require_edge_type examples s p o :
  (s, p, o) ∈ (get_relations dspy input_data entities is_conversation
                 edge_types require_edge_type examples).1.1 →
  s ∈ entities ∧ o ∈ entities.
Proof.
  unfold get_relations.
  destruct (dspy _ _) as [items|e]; [|cbn; by intros ?%elem_of_nil].
  pose proof (collect_relations_endpoints edge_types entities items [] ∅ []
                (List.Forall_nil _)) as Hall.
  destruct (collect_relations _ _ _ _ _ _) as [[relations m] log].
  cbn in *. intros Hin.
  by apply (proj1 (Forall_forall _ _) Hall (s, p, o)).
Qed.

Lemma get_relations_endpoints_known_witness :
  "Alice" ∈ ["Alice"; "Bob"] ∧ "Bob" ∈ ["Alice"; "Bob"].
Proof.
  apply (get_relations_endpoints_known
           (answering [alice_knows_bob; alice_knows_carol]) "text"
           ["Alice"; "Bob"] false None true None "Alice" "knows" "Bob").
  vm_compute. constructor.
Defined.

(** C2: when the model call raises, [get_entities] and [get_relations]
    return the empty list with no type mapping, and the log holds the one
    warning about the failed extraction. *)
Theorem model_failure_returns_empty :
  (∀ dspy input_data is_conversation node_types require_node_type examples e,
     dspy (entities_signature node_types is_conversation)
          (entities_params input_data node_types require_node_type examples)
       = Raised e →
     get_entities dspy input_data is_conversation node_types
       require_node_type examples
     = (Returned ([], None), [ExtractionFailed e])) ∧
  (∀ dspy input_data entities is_conversation edge_types require_edge_type
     examples e,
     dspy (relations_signature edge_types is_conversation)
          (relations_params input_data entities edge_types require_edge_type
             examples)
       = Raised e →
     get_relations dspy input_data entities is_conversation edge_types
       require_edge_type examples
     = ([], None, [ExtractionFailed e])).
Proof.
  split; intros; unfold get_entities, get_relations.
  - by rewrite H.
  - by rewrite H.
Qed.

Lemma model_failure_returns_empty_witness :
  get_entities (failing (Exception "timeout")) "text" false
    (Some ["Person"]) true None
  = (Returned ([], None), [ExtractionFailed (Exception "timeout")]) ∧
  get_relations (failing (Exception "timeout")) "text" ["Alice"; "Bob"]
    true None true None
  = ([], None, [ExtractionFailed (Exception "timeout")]).
Proof.
  split.
  - apply (proj1 model_failure_returns_empty). reflexivity.
  - apply (proj2 model_failure_returns_empty). reflexivity.
Defined.

(** C3: after a typed call of [get_entities] that returns, every key of the
    entity → type mapping is an element of the returned entity list. *)
Theorem get_entities_types_subset dspy input_data is_conversation node_types
    require_node_type examples entities entity_types log :
  given node_types = true →
  get_entities dspy input_data is_conversation node_types require_node_type
    examples = (Returned (entities, Some entity_types), log) →
  ∀ k, k ∈ keys entity_types → k ∈ entities.
Proof.
  intros Hg. unfold get_entities. rewrite Hg.
  destruct (dspy _ _) as [items|e]; [|done].
  destruct (collect_entities items [] [] []) as [[[es et]|e] log0] eqn:Hloop;
    [|done].
  intros [= <- <- <-].
  apply (collect_entities_keys items [] [] [] es et log0); [|done].
  cbn. by intros k ?%elem_of_nil.
Qed.

Lemma get_entities_types_subset_witness :
  PStr "Alice" ∈ [PStr "Alice"; PStr "XYZ"].
Proof.
  apply (get_entities_types_subset
           (answering [alice_person; xyz_untyped]) "text" false
           (Some ["Person"]) true None
           [PStr "Alice"; PStr "XYZ"] [(PStr "Alice", PStr "Person")] []).
  - reflexivity.
  - reflexivity.
  - vm_compute. constructor.
Defined.

(** C4 (the code departs from the claim): in the typed path an item
    without an ["entity"] key is skipped and the items after it are
    processed, but no warning is issued for it.  The lookup raises
    [KeyError], which the handler that warns ([except ValidationError])
    does not catch. *)
Theorem get_entities_missing_entity_silent :
  get_entities (answering [type_only; bob_untyped]) "text" false
    (Some ["Person"]) true None
  = (Returned ([PStr "Bob"], Some []), []).
Proof. reflexivity. Qed.

(** C5: in [get_relations] every item that does not follow the expected
    schema (the plain triple without [edge_types], the triple with its
    predicate type with them) is skipped with a warning naming it, and the
    items after it are processed.  In particular an item missing a required
    field is warned about; the log holds one warning per such item, in
    order, and no other; and the relations and the type mapping are those
    of a run on the items that follow the schema alone. *)
Theorem get_relations_rejects_with_warning dspy input_data entities
    is_conversation edge_types require_edge_type examples items :
  dspy (relations_signature edge_types is_conversation)
       (relations_params input_data entities edge_types require_edge_type
          examples)
    = Returned items →
  let run :=
    get_relations dspy input_data entities is_conversation edge_types
      require_edge_type examples in
  let off_schema := λ item, negb (expected_schema edge_types item) in
  (∀ item, item ∈ items → expected_schema edge_types item = false →
     ∃ errs, InvalidRelation item (ValidationError errs) ∈ run.2) ∧
  (∀ item field, item ∈ items → field ∈ required_fields →
     dict_get item field = None →
     ∃ errs, InvalidRelation item (ValidationError errs) ∈ run.2) ∧
  omap warned_item run.2 = List.filter off_schema items ∧
  length run.2 = length (List.filter off_schema items) ∧
  run.1 =
    (get_relations
       (answering (List.filter (expected_schema edge_types) items))
       input_data entities is_conversation edge_types require_edge_type
       examples).1.
Proof.
  intros Hcall run off_schema.
  assert (Hlog : run.2 = rejections edge_types items).
  { subst run. unfold get_relations. rewrite Hcall.
    pose proof (collect_relations_log edge_types entities items [] ∅ [])
      as Hlog.
    by destruct (collect_relations _ _ _ _ _ _) as [[??]?]. }
  assert (Hoff : ∀ item, item ∈ items →
            expected_schema edge_types item = false →
            ∃ errs, InvalidRelation item (ValidationError errs) ∈ run.2).
  { intros item Hin Hbad. rewrite Hlog.
    rewrite <- conforms_expected_schema in Hbad. unfold conforms in Hbad.
    destruct (validate_relation edge_types item) as [r|e] eqn:Hv; [done|].
    destruct (validate_relation_raises _ _ _ Hv) as [errs ->].
    exists errs. unfold rejections. apply list_elem_of_In, in_flat_map.
    exists item. split; [by apply list_elem_of_In|].
    unfold rejection. rewrite Hv. by left. }
  assert (Hfilter : List.filter off_schema items
            = List.filter (λ item, negb (conforms edge_types item)) items).
  { apply List.filter_ext. intros item. subst off_schema. cbn.
    by rewrite conforms_expected_schema. }
  split_and!.
  - done.
  - intros item field Hin Hfield Hmissing. apply Hoff; [done|].
    by apply (missing_field_off_schema _ _ field).
  - by rewrite Hlog, Hfilter, rejections_items.
  - by rewrite Hlog, Hfilter, rejections_length.
  - subst run. unfold get_relations, answering. rewrite Hcall.
    rewrite <- (List.filter_ext (conforms edge_types)
                  (expected_schema edge_types)
                  (conforms_expected_schema edge_types)).
    pose proof (collect_relations_filter edge_types entities items [] ∅ [] [])
      as Hf.
    destruct (collect_relations _ _ items _ _ _) as [[??]?].
    destruct (collect_relations _ _ (List.filter _ _) _ _ _) as [[??]?].
    cbn in *. by injection Hf as -> ->.
Qed.

Lemma get_relations_rejects_with_warning_witness :
  ∃ errs,
    InvalidRelation no_object (ValidationError errs)
      ∈ (get_relations (answering [no_object; alice_knows_bob]) "text"
           ["Alice"; "Bob"] false None true None).2.
Proof.
  apply (proj1 (get_relations_rejects_with_warning
                  (answering [no_object; alice_knows_bob]) "text"
                  ["Alice"; "Bob"] false None true None
                  [no_object; alice_knows_bob] eq_refl)).
  - vm_compute. left.
  - reflexivity.
Defined.

(** C6: with [node_types = ["Person"]] and [require_node_type = True], when
    the model returns Alice typed as Person and XYZ without a type, the
    result is the list Alice, XYZ and the mapping of Alice to Person: the
    entity without a type is kept. *)
Theorem get_entities_alice_xyz dspy input_data is_conversation examples :
  dspy (entities_signature (Some ["Person"]) is_conversation)
       (entities_params input_data (Some ["Person"]) true examples)
    = Returned [alice_person; xyz_untyped] →
  get_entities dspy input_data is_conversation (Some ["Person"]) true examples
  = (Returned ([PStr "Alice"; PStr "XYZ"],
               Some [(PStr "Alice", PStr "Person")]), []).
Proof. intros Hcall. unfold get_entities. by rewrite Hcall. Qed.

Lemma get_entities_alice_xyz_witness :
  get_entities (answering [alice_person; xyz_untyped]) "text" false
    (Some ["Person"]) true None
  = (Returned ([PStr "Alice"; PStr "XYZ"],
               Some [(PStr "Alice", PStr "Person")]), []).
Proof.
  apply (get_entities_alice_xyz (answering [alice_person; xyz_untyped])
           "text" false None).
  reflexivity.
Defined.

(** C7: after a typed call of [get_relations] that returns, every entry of
    the predicate → type mapping comes from a returned item that validated
    with that predicate and that (non-empty) type, whose subject and object
    are known entities and whose triple is in the returned list. *)
Theorem get_relations_type_map_backed dspy input_data entities
    is_conversation edge_types require_edge_type examples items
    relations edge_type_map log :
  given edge_types = true →
  dspy (relations_signature edge_types is_conversation)
       (relations_params input_data entities edge_types require_edge_type
          examples)
    = Returned items →
  get_relations dspy input_data entities is_conversation edge_types
    require_edge_type examples = (relations, Some edge_type_map, log) →
  ∀ p t, edge_type_map !! p = Some t →
    t ≠ "" ∧
    ∃ item s o,
      item ∈ items ∧
      validate_relation edge_types item
        = Returned (RelationWithType s p o (Some t)) ∧
      s ∈ entities ∧ o ∈ entities ∧
      (s, p, o) ∈ relations.
Proof.
  intros Hg Hcall Hrun p t Hm.
  pose proof (get_relations_endpoints_known dspy input_data entities
                is_conversation edge_types require_edge_type examples)
    as Hknown.
  rewrite Hrun in Hknown. cbn in Hknown.
  unfold get_relations in Hrun. rewrite Hcall, Hg in Hrun.
  pose proof (collect_relations_backed edge_types entities items items
                [] ∅ []) as Hb.
  destruct (collect_relations _ _ _ _ _ _) as [[rs m] lg].
  injection Hrun as -> -> ->. cbn in Hb.
  destruct (Hb ltac:(done) ltac:(by intros ???%lookup_empty_Some) p t Hm)
    as (Hne & item & s & o & Hin & Hv & Hrel).
  split; [done|]. exists item, s, o.
  destruct (Hknown s p o Hrel). by split_and!.
Qed.

Lemma get_relations_type_map_backed_witness :
  "social" ≠ "" ∧
  ∃ item s o,
    item ∈ [alice_knows_bob; alice_knows_carol] ∧
    validate_relation (Some ["social"]) item
      = Returned (RelationWithType s "knows" o (Some "social")) ∧
    s ∈ ["Alice"; "Bob"] ∧ o ∈ ["Alice"; "Bob"] ∧
    (s, "knows", o) ∈ [("Alice", "knows", "Bob")].
Proof.
  apply (get_relations_type_map_backed
           (answering [alice_knows_bob; alice_knows_carol]) "text"
           ["Alice"; "Bob"] false (Some ["social"]) true None
           [alice_knows_bob; alice_knows_carol]
           [("Alice", "knows", "Bob")] {["knows" := "social"]} []).
  - reflexivity.
  - reflexivity.
  - vm_compute. reflexivity.
  - vm_compute. reflexivity.
Defined.

(** C8: without [node_types], when the model call returns, [get_entities]
    returns the list of items as the model gave it, item for item, with no
    type mapping; nothing is validated or dropped and nothing is logged. *)
Theorem get_entities_untyped_raw dspy input_data is_conversation node_types
    require_node_type examples items :
  given node_types = false →
  dspy (entities_signature node_types is_conversation)
       (entities_params input_data node_types require_node_type examples)
    = Returned items →
  get_entities dspy input_data is_conversation node_types require_node_type
    examples = (Returned (map PDict items, None), []).
Proof. intros Hg Hcall. unfold get_entities. by rewrite Hcall, Hg. Qed.

Lemma get_entities_untyped_raw_witness :
  get_entities (answering [type_only; alice_person]) "text" true None true
    None
  = (Returned (map PDict [type_only; alice_person], None), []).
Proof.
  apply (get_entities_untyped_raw (answering [type_only; alice_person])
           "text" true None true None).
  - reflexivity.
  - reflexivity.
Defined.

(** C9: an empty [node_types] (resp. [edge_types]) is treated as [None]:
    the signature without types is chosen, the parameters hold neither the
    list of types nor [require_type], the whole call gives the result it
    gives for [None], and the type mapping of that result is [None]. *)
Theorem empty_types_like_none :
  (∀ dspy input_data is_conversation require_node_type examples,
     entities_signature (Some []) is_conversation
       = (if is_conversation then ConversationEntities else TextEntities) ∧
     entities_params input_data (Some []) require_node_type examples
       = entities_params input_data None require_node_type examples ∧
     dict_get (entities_params input_data (Some []) require_node_type
                 examples) "node_types" = None ∧
     dict_get (entities_params input_data (Some []) require_node_type
                 examples) "require_type" = None ∧
     get_entities dspy input_data is_conversation (Some [])
       require_node_type examples
       = get_entities dspy input_data is_conversation None
           require_node_type examples ∧
     ∃ entities log,
       get_entities dspy input_data is_conversation (Some [])
         require_node_type examples = (Returned (entities, None), log)) ∧
  (∀ dspy input_data entities is_conversation require_edge_type examples,
     relations_signature (Some []) is_conversation
       = (if is_conversation then ExtractConversationRelations
          else ExtractTextRelations) ∧
     relations_params input_data entities (Some []) require_edge_type
       examples
       = relations_params input_data entities None require_edge_type
           examples ∧
     dict_get (relations_params input_data entities (Some [])
                 require_edge_type examples) "edge_types" = None ∧
     dict_get (relations_params input_data entities (Some [])
                 require_edge_type examples) "require_type" = None ∧
     get_relations dspy input_data entities is_conversation (Some [])
       require_edge_type examples
       = get_relations dspy input_data entities is_conversation None
           require_edge_type examples ∧
     (get_relations dspy input_data entities is_conversation (Some [])
        require_edge_type examples).1.2 = None).
Proof.
  split.
  - intros dspy input_data is_conversation require_node_type examples.
    split_and!; try reflexivity.
    + unfold entities_params. by destruct (given examples).
    + unfold entities_params. by destruct (given examples).
    + unfold get_entities. cbn [given].
      destruct (dspy _ _) as [items|e]; eauto.
  - intros dspy input_data entities is_conversation require_edge_type
      examples.
    split_and!; try reflexivity.
    + unfold relations_params. by destruct (given examples).
    + unfold relations_params. by destruct (given examples).
    + unfold get_relations.
      destruct (dspy _ _) as [items|e]; [|reflexivity].
      by rewrite (collect_relations_given (Some []) None).
    + unfold get_relations.
      destruct (dspy _ _) as [items|e]; [|reflexivity].
      by destruct (collect_relations _ _ _ _ _ _) as [[??]?].
Qed.

(** C10: the predicate → type mapping returned by [get_relations] is [None]
    exactly when [edge_types] is absent or empty or the model call raised;
    with a non-empty [edge_types] and a call that returns it is a
    dictionary. *)
Theorem get_relations_map_none_iff dspy input_data entities is_conversation
    edge_types require_edge_type examples :
  let call :=
    dspy (relations_signature edge_types is_conversation)
         (relations_params input_data entities edge_types require_edge_type
            examples) in
  let mapping :=
    (get_relations dspy input_data entities is_conversation edge_types
       require_edge_type examples).1.2 in
  (mapping = None ↔ given edge_types = false ∨ ∃ e, call = Raised e) ∧
  (given edge_types = true → (∃ items, call = Returned items) →
   ∃ edge_type_map, mapping = Some edge_type_map).
Proof.
  intros call mapping. subst call mapping. unfold get_relations.
  destruct (dspy _ _) as [items|e].
  - destruct (collect_relations _ _ _ _ _ _) as [[relations m] log].
    cbn. destruct (given edge_types); split.
    + split; [done|]. by intros [?|[e ?]].
    + eauto.
    + split; auto.
    + done.
  - cbn. split.
    + split; eauto.
    + by intros _ [items ?].
Qed.

Lemma get_relations_map_none_iff_witness :
  ∃ edge_type_map,
    (get_relations (answering [alice_knows_carol]) "text" ["Alice"; "Bob"]
       false (Some ["social"]) true None).1.2 = Some edge_type_map.
Proof.
  apply (proj2 (get_relations_map_none_iff (answering [alice_knows_carol])
                  "text" ["Alice"; "Bob"] false (Some ["social"]) true None)).
  - reflexivity.
  - eexists. reflexivity.
Defined.

(** * Further properties of the two functions *)

(** ** The request *)

(** X1: the keyword parameters [get_entities] submits are the input fields
    the chosen signature declares, in that order, followed by [demos] when
    examples were given. *)
Theorem entities_params_match_signature input_data is_conversation
    node_types require_node_type examples :
  map fst (entities_params input_data node_types require_node_type examples)
  = entities_input_fields (entities_signature node_types is_conversation)
    ++ (if given examples then ["demos"] else []).
Proof.
  unfold entities_params, entities_signature.
  destruct (given node_types), (given examples), is_conversation;
    reflexivity.
Qed.

(** X2: the keyword parameters [get_relations] submits are the input fields
    the chosen signature declares, in that order, followed by [demos] when
    examples were given. *)
Theorem relations_params_match_signature input_data entities is_conversation
    edge_types require_edge_type examples :
  map fst (relations_params input_data entities edge_types require_edge_type
             examples)
  = relations_input_fields (relations_signature edge_types is_conversation)
    ++ (if given examples then ["demos"] else []).
Proof.
  unfold relations_params, relations_signature.
  destruct (given edge_types), (given examples), is_conversation;
    reflexivity.
Qed.

(** ** [get_entities] *)

Lemma key_eqb_refl (k : pyval) : hashable k = true → key_eqb k k = true.
Proof.
  destruct k as [|b|z|s|l|d]; cbn; try done; intros _.
  - by destruct b.
  - apply Z.eqb_refl.
  - apply String.eqb_refl.
Qed.

Lemma collect_entities_entities items entities entity_types log
    entities' entity_types' log' :
  collect_entities items entities entity_types log
    = (Returned (entities', entity_types'), log') →
  entities' = entities ++ omap (λ item, dict_get item "entity") items.
Proof.
  revert entities entity_types log.
  induction items as [|item rest IH]; intros entities entity_types log.
  { cbn. intros [= <- <- <-]. by rewrite app_nil_r. }
  cbn [collect_entities omap list_omap]. unfold dict_getitem, valdict_setitem.
  destruct (dict_get item "entity") as [entity|]; [|by apply IH].
  assert (Hstep : ∀ et lg,
            collect_entities rest (entities ++ [entity]) et lg
              = (Returned (entities', entity_types'), log') →
            entities' = entities ++ entity :: omap
                          (λ item, dict_get item "entity") rest).
  { intros et lg Hrun. rewrite (IH _ _ _ Hrun), <- app_assoc. done. }
  destruct (dict_get item "type") as [ty|]; [|by apply Hstep].
  destruct (truthy ty); [|by apply Hstep].
  destruct (hashable entity); [by apply Hstep|done].
Qed.

(** X3: a typed call of [get_entities] that returns gives, in order and
    with repetitions, the value under ["entity"] of every item that has
    that key; items without the key contribute nothing. *)
Theorem get_entities_typed_entities dspy input_data is_conversation
    node_types require_node_type examples items entities entity_types log :
  given node_types = true →
  dspy (entities_signature node_types is_conversation)
       (entities_params input_data node_types require_node_type examples)
    = Returned items →
  get_entities dspy input_data is_conversation node_types require_node_type
    examples = (Returned (entities, entity_types), log) →
  entities = omap (λ item, dict_get item "entity") items.
Proof.
  intros Hg Hcall. unfold get_entities. rewrite Hcall, Hg.
  destruct (collect_entities items [] [] []) as [[[es et]|e] log0] eqn:Hloop;
    [|done].
  intros [= <- <- <-]. apply (collect_entities_entities _ _ _ _ _ _ _ Hloop).
Qed.

Lemma get_entities_typed_entities_witness :
  [PStr "Alice"; PStr "Bob"; PStr "Alice"]
  = omap (λ item, dict_get item "entity")
      [alice_person; type_only; bob_untyped; alice_person].
Proof.
  apply (get_entities_typed_entities
           (answering [alice_person; type_only; bob_untyped; alice_person])
           "text" false (Some ["Person"]) true None
           [alice_person; type_only; bob_untyped; alice_person]
           [PStr "Alice"; PStr "Bob"; PStr "Alice"]
           (Some [(PStr "Alice", PStr "Person")]) []).
  - reflexivity.
  - reflexivity.
  - reflexivity.
Defined.

Lemma collect_entities_outcome items entities entity_types log :
  (existsb unhashable_entity items = true →
   collect_entities items entities entity_types log
   = (Raised (TypeError "unhashable type"), log)) ∧
  (existsb unhashable_entity items = false →
   ∃ entities' entity_types',
     collect_entities items entities entity_types log
     = (Returned (entities', entity_types'), log)).
Proof.
  revert entities entity_types log.
  induction items as [|item rest IH]; intros entities entity_types log.
  { cbn. split; [done|eauto]. }
  cbn [collect_entities existsb]. unfold unhashable_entity at 1 3.
  unfold dict_getitem, valdict_setitem.
  destruct (dict_get item "entity") as [entity|]; [|by apply IH].
  destruct (dict_get item "type") as [ty|]; [|by apply IH].
  destruct (truthy ty); [|by apply IH].
  destruct (hashable entity); cbn; [by apply IH|].
  split; [done|discriminate].
Qed.

(** X4: a typed call of [get_entities] whose model call returns raises
    [TypeError] exactly when some item carries a truthy type next to an
    unhashable entity (a list or a dict); otherwise it returns a list and a
    dictionary. *)
Theorem get_entities_typed_outcome dspy input_data is_conversation
    node_types require_node_type examples items :
  given node_types = true →
  dspy (entities_signature node_types is_conversation)
       (entities_params input_data node_types require_node_type examples)
    = Returned items →
  let run :=
    get_entities dspy input_data is_conversation node_types
      require_node_type examples in
  (existsb unhashable_entity items = true →
   run.1 = Raised (TypeError "unhashable type")) ∧
  (existsb unhashable_entity items = false →
   ∃ entities entity_types, run.1 = Returned (entities, Some entity_types)).
Proof.
  intros Hg Hcall run. subst run. unfold get_entities. rewrite Hcall, Hg.
  destruct (collect_entities_outcome items [] [] []) as [Hbad Hgood].
  split; intros Hex.
  - by rewrite (Hbad Hex).
  - destruct (Hgood Hex) as (es & et & ->). eauto.
Qed.

Lemma get_entities_typed_outcome_witness :
  (get_entities
     (answering [alice_person;
                 [("entity", PList [PStr "a"]); ("type", PStr "Person")]])
     "text" false (Some ["Person"]) true None).1
  = Raised (TypeError "unhashable type").
Proof.
  apply (proj1 (get_entities_typed_outcome
                  (answering
                     [alice_person;
                      [("entity", PList [PStr "a"]); ("type", PStr "Person")]])
                  "text" false (Some ["Person"]) true None _
                  eq_refl eq_refl)).
  reflexivity.
Defined.

(** X5: [get_entities] warns when the model call raises and at no other
    time: the log is the one warning of the failed call, or empty. *)
Theorem get_entities_log dspy input_data is_conversation node_types
    require_node_type examples :
  (get_entities dspy input_data is_conversation node_types require_node_type
     examples).2
  = match dspy (entities_signature node_types is_conversation)
            (entities_params input_data node_types require_node_type
               examples) with
    | Raised e => [ExtractionFailed e]
    | Returned _ => []
    end.
Proof.
  unfold get_entities. destruct (dspy _ _) as [items|e]; [|done].
  destruct (given node_types); [|done].
  pose proof (collect_entities_log items [] [] []) as Hlog.
  by destruct (collect_entities items [] [] []) as [[[??]|?] ?].
Qed.

Lemma valdict_put_entries (d : valdict) (k v k' v' : pyval) :
  (k', v') ∈ valdict_put d k v →
  (k', v') ∈ d ∨ (v' = v ∧ (k' = k ∨ (k' ∈ keys d ∧ key_eqb k' k = true))).
Proof.
  unfold keys. induction d as [|[k0 v0] d IH]; cbn.
  - rewrite list_elem_of_singleton. intros [= -> ->]. auto.
  - destruct (key_eqb k0 k) eqn:Hk; rewrite !elem_of_cons.
    + intros [[= -> ->]|Hin]; [|auto]. right. split; [done|]. right.
      split; [by left|done].
    + intros [[= -> ->]|Hin]; [auto|].
      destruct (IH Hin) as [?|(-> & [->|[? ?]])]; auto.
      right. split; [done|]. right. split; [by right|done].
Qed.

Lemma valdict_put_keys_kept (d : valdict) (k v k' : pyval) :
  k' ∈ keys d → k' ∈ keys (valdict_put d k v).
Proof.
  unfold keys. induction d as [|[k0 v0] d IH]; cbn; [by intros ?%elem_of_nil|].
  destruct (key_eqb k0 k); cbn; rewrite !elem_of_cons; [done|].
  intros [->|Hin]; auto.
Qed.

Lemma valdict_put_key_present (d : valdict) (k v : pyval) :
  hashable k = true →
  ∃ k', k' ∈ keys (valdict_put d k v) ∧ key_eqb k' k = true.
Proof.
  intros Hk. unfold keys. induction d as [|[k0 v0] d IH]; cbn.
  - exists k. split; [by left|by apply key_eqb_refl].
  - destruct (key_eqb k0 k) eqn:Heq; cbn.
    + exists k0. split; [by left|done].
    + destruct IH as (k' & Hin & Hk'). exists k'. split; [by right|done].
Qed.

(** Where an entry of [entity_types] comes from: an item of [all] with an
    equal entity, carrying that value as its truthy type. *)

Lemma collect_entities_entries all items entities entity_types log
    entities' entity_types' log' :
  items ⊆ all →
  (∀ k v, (k, v) ∈ entity_types →
     truthy v = true ∧
     ∃ item entity, item ∈ all ∧ dict_get item "entity" = Some entity ∧
       key_eqb k entity = true ∧ dict_get item "type" = Some v) →
  collect_entities items entities entity_types log
    = (Returned (entities', entity_types'), log') →
  ∀ k v, (k, v) ∈ entity_types' →
    truthy v = true ∧
    ∃ item entity, item ∈ all ∧ dict_get item "entity" = Some entity ∧
      key_eqb k entity = true ∧ dict_get item "type" = Some v.
Proof.
  revert entities entity_types log.
  induction items as [|item rest IH]; intros entities entity_types log
    Hsub Hacc.
  { cbn. by intros [= <- <- <-]. }
  assert (Hitem : item ∈ all) by (apply Hsub; by left).
  assert (Hrest : rest ⊆ all) by (intros x Hx; apply Hsub; by right).
  cbn [collect_entities]. unfold dict_getitem, valdict_setitem.
  destruct (dict_get item "entity") as [entity|] eqn:He; [|by apply IH].
  destruct (dict_get item "type") as [ty|] eqn:Hty; [|by apply IH].
  destruct (truthy ty) eqn:Htruthy; [|by apply IH].
  destruct (hashable entity) eqn:Hh; [|done].
  apply IH; [done|]. intros k v Hin.
  destruct (valdict_put_entries _ _ _ _ _ Hin) as [Hold|[-> Hnew]];
    [by apply Hacc|].
  split; [done|]. exists item, entity. split_and!; try done.
  destruct Hnew as [->|[_ Heq]]; [by apply key_eqb_refl|done].
Qed.

(** X6: every entry of the mapping returned by a typed call of
    [get_entities] holds a truthy value, the type of a returned item whose
    entity equals the key. *)
Theorem get_entities_types_from_items dspy input_data is_conversation
    node_types require_node_type examples items entities entity_types log :
  given node_types = true →
  dspy (entities_signature node_types is_conversation)
       (entities_params input_data node_types require_node_type examples)
    = Returned items →
  get_entities dspy input_data is_conversation node_types require_node_type
    examples = (Returned (entities, Some entity_types), log) →
  ∀ k v, (k, v) ∈ entity_types →
    truthy v = true ∧
    ∃ item entity, item ∈ items ∧ dict_get item "entity" = Some entity ∧
      key_eqb k entity = true ∧ dict_get item "type" = Some v.
Proof.
  intros Hg Hcall. unfold get_entities. rewrite Hcall, Hg.
  destruct (collect_entities items [] [] []) as [[[es et]|e] log0] eqn:Hloop;
    [|done].
  intros [= <- <- <-].
  apply (collect_entities_entries items items [] [] [] es et log0);
    [done| |done].
  by intros k v ?%elem_of_nil.
Qed.

Lemma get_entities_types_from_items_witness :
  truthy (PStr "Person") = true ∧
  ∃ item entity, item ∈ [alice_person; xyz_untyped] ∧
    dict_get item "entity" = Some entity ∧
    key_eqb (PStr "Alice") entity = true ∧
    dict_get item "type" = Some (PStr "Person").
Proof.
  apply (get_entities_types_from_items
           (answering [alice_person; xyz_untyped]) "text" false
           (Some ["Person"]) true None [alice_person; xyz_untyped]
           [PStr "Alice"; PStr "XYZ"] [(PStr "Alice", PStr "Person")] []).
  - reflexivity.
  - reflexivity.
  - reflexivity.
  - vm_compute. constructor.
Defined.

Lemma collect_entities_typed_keys items entities entity_types log
    entities' entity_types' log' :
  collect_entities items entities entity_types log
    = (Returned (entities', entity_types'), log') →
  (∀ k, k ∈ keys entity_types → k ∈ keys entity_types') ∧
  (∀ item entity ty, item ∈ items →
     dict_get item "entity" = Some entity →
     dict_get item "type" = Some ty → truthy ty = true →
     ∃ k, k ∈ keys entity_types' ∧ key_eqb k entity = true).
Proof.
  revert entities entity_types log.
  induction items as [|item rest IH]; intros entities entity_types log.
  { cbn. intros [= <- <- <-]. split; [done|].
    by intros ??? ?%elem_of_nil. }
  cbn [collect_entities]. unfold dict_getitem, valdict_setitem.
  assert (Hskip : ∀ es,
    (∀ entity ty, dict_get item "entity" = Some entity →
       dict_get item "type" = Some ty → truthy ty = true → False) →
    collect_entities rest es entity_types log
      = (Returned (entities', entity_types'), log') →
    (∀ k, k ∈ keys entity_types → k ∈ keys entity_types') ∧
    (∀ it entity ty, it ∈ item :: rest →
       dict_get it "entity" = Some entity →
       dict_get it "type" = Some ty → truthy ty = true →
       ∃ k, k ∈ keys entity_types' ∧ key_eqb k entity = true)).
  { intros es Hno Hrun. destruct (IH _ _ _ Hrun) as [Hkeep Hall].
    split; [done|]. intros it entity ty [->|Hin]%elem_of_cons ???.
    - by destruct (Hno entity ty).
    - by apply (Hall it entity ty). }
  destruct (dict_get item "entity") as [entity|] eqn:He;
    [|by apply Hskip].
  destruct (dict_get item "type") as [ty|] eqn:Hty;
    [|by apply Hskip].
  destruct (truthy ty) eqn:Htruthy;
    [|apply Hskip; intros ?? _ [= <-]; congruence].
  destruct (hashable entity) eqn:Hh; [|done].
  intros Hrun. destruct (IH _ _ _ Hrun) as [Hkeep Hall]. split.
  - intros k Hk. by apply Hkeep, valdict_put_keys_kept.
  - intros it entity' ty' [->|Hin]%elem_of_cons He' Hty' Htr'.
    + assert (entity' = entity) as -> by congruence.
      destruct (valdict_put_key_present entity_types entity ty Hh)
        as (k & Hk & Heq).
      exists k. split; [by apply Hkeep|done].
    + by apply (Hall it entity' ty').
Qed.

(** X7: after a typed call of [get_entities] that returns, every item that
    carries a truthy type has a key equal to its entity in the mapping: no
    typed entity is left out of it. *)
Theorem get_entities_typed_entities_mapped dspy input_data is_conversation
    node_types require_node_type examples items entities entity_types log :
  given node_types = true →
  dspy (entities_signature node_types is_conversation)
       (entities_params input_data node_types require_node_type examples)
    = Returned items →
  get_entities dspy input_data is_conversation node_types require_node_type
    examples = (Returned (entities, Some entity_types), log) →
  ∀ item entity ty, item ∈ items →
    dict_get item "entity" = Some entity →
    dict_get item "type" = Some ty → truthy ty = true →
    ∃ k, k ∈ keys entity_types ∧ key_eqb k entity = true.
Proof.
  intros Hg Hcall. unfold get_entities. rewrite Hcall, Hg.
  destruct (collect_entities items [] [] []) as [[[es et]|e] log0] eqn:Hloop;
    [|done].
  intros [= <- <- <-].
  apply (collect_entities_typed_keys _ _ _ _ _ _ _ Hloop).
Qed.

Lemma get_entities_typed_entities_mapped_witness :
  ∃ k, k ∈ keys [(PStr "Alice", PStr "Person")] ∧
       key_eqb k (PStr "Alice") = true.
Proof.
  apply (get_entities_typed_entities_mapped
           (answering [alice_person; xyz_untyped]) "text" false
           (Some ["Person"]) true None [alice_person; xyz_untyped]
           [PStr "Alice"; PStr "XYZ"] [(PStr "Alice", PStr "Person")] []
           eq_refl eq_refl eq_refl alice_person (PStr "Alice")
           (PStr "Person")).
  - vm_compute. constructor.
  - reflexivity.
  - reflexivity.
  - reflexivity.
Defined.

(** ** [get_relations] *)

Lemma collect_relations_run edge_types entities items relations
    edge_type_map log :
  (collect_relations edge_types entities items relations edge_type_map
     log).1
  = (relations ++ omap (kept_triple edge_types entities) items,
     foldl (λ m entry, <[entry.1 := entry.2]> m) edge_type_map
       (omap (recorded_type edge_types entities) items)).
Proof.
  revert relations edge_type_map log.
  induction items as [|item rest IH]; intros relations m log.
  { cbn. by rewrite app_nil_r. }
  cbn [collect_relations omap list_omap].
  unfold kept_triple at 1, recorded_type at 1.
  destruct (validate_relation edge_types item) as [r|e] eqn:Hv.
  - destruct (contains (rel_subject r) entities
              && contains (rel_object r) entities) eqn:Hk; cbn [andb].
    + destruct (given edge_types && str_given (rel_predicate_type r))
        eqn:Ht; rewrite IH; cbn; by rewrite <- app_assoc.
    + by rewrite IH.
  - destruct (validate_relation_raises _ _ _ Hv) as [errs ->].
    by rewrite IH.
Qed.

Lemma recorded_type_Some edge_types entities item p t :
  recorded_type edge_types entities item = Some (p, t) ↔
  given edge_types = true ∧ t ≠ "" ∧
  ∃ s o, validate_relation edge_types item
           = Returned (RelationWithType s p o (Some t)) ∧
         s ∈ entities ∧ o ∈ entities.
Proof.
  unfold recorded_type. split.
  - destruct (validate_relation edge_types item) as [r|e] eqn:Hv; [|done].
    destruct (contains (rel_subject r) entities) eqn:Hs; [|done].
    destruct (contains (rel_object r) entities) eqn:Ho; [|done].
    destruct (given edge_types) eqn:Hg; [|done].
    destruct (validate_relation_typed _ _ _ Hg Hv) as (s & p' & o & t' & ->).
    cbn in *. destruct t' as [t'|]; [|done]. cbn.
    destruct (String.eqb t' "") eqn:Hne; [done|]. cbn.
    intros [= <- <-]. split_and!; [done| |].
    + intros ->. by rewrite String.eqb_refl in Hne.
    + exists s, o. split_and!; [done|by apply contains_elem_of..].
  - intros (Hg & Hne & s & o & -> & Hs & Ho). cbn.
    apply contains_elem_of in Hs as ->. apply contains_elem_of in Ho as ->.
    rewrite Hg. cbn. destruct (String.eqb t "") eqn:Heq; [|done].
    by apply String.eqb_eq in Heq.
Qed.

Lemma foldl_insert_untouched (entries : list (string * string))
    (m : gmap string string) (p : string) :
  (∀ t, (p, t) ∉ entries) →
  foldl (λ m entry, <[entry.1 := entry.2]> m) m entries !! p = m !! p.
Proof.
  revert m. induction entries as [|[q t] entries IH]; intros m Hno; [done|].
  cbn. rewrite IH.
  - apply lookup_insert_ne. intros ->. apply (Hno t). by left.
  - intros t' Hin. apply (Hno t'). by right.
Qed.

Lemma omap_sublist {A B : Type} (f g : A → option B) (l : list A) :
  (∀ x y, x ∈ l → f x = Some y → g x = Some y) →
  omap f l `sublist_of` omap g l.
Proof.
  induction l as [|x l IH]; intros Hfg; [constructor|].
  assert (Hl : omap f l `sublist_of` omap g l).
  { apply IH. intros x' y ?. apply Hfg. by right. }
  cbn. destruct (f x) as [y|] eqn:Hf.
  - rewrite (Hfg x y (list_elem_of_here _ _) Hf). by constructor.
  - destruct (g x); [by constructor|done].
Qed.

(** X8: when the model call returns, the relations [get_relations] returns
    are, in the order of the answer and with repetitions, the triples of
    the items that validate and whose subject and object are both in the
    list of entities. *)
Theorem get_relations_relations dspy input_data entities is_conversation
    edge_types require_edge_type examples items :
  dspy (relations_signature edge_types is_conversation)
       (relations_params input_data entities edge_types require_edge_type
          examples)
    = Returned items →
  (get_relations dspy input_data entities is_conversation edge_types
     require_edge_type examples).1.1
  = omap (kept_triple edge_types entities) items.
Proof.
  intros Hcall. unfold get_relations. rewrite Hcall.
  pose proof (collect_relations_run edge_types entities items [] ∅ [])
    as Hrun.
  destruct (collect_relations _ _ _ _ _ _) as [[rs m] lg].
  cbn in *. by injection Hrun as -> _.
Qed.

Lemma get_relations_relations_witness :
  (get_relations
     (answering [alice_knows_bob; no_object; alice_knows_carol;
                 alice_knows_bob])
     "text" ["Alice"; "Bob"] false None true None).1.1
  = omap (kept_triple None ["Alice"; "Bob"])
      [alice_knows_bob; no_object; alice_knows_carol; alice_knows_bob].
Proof.
  apply (get_relations_relations
           (answering [alice_knows_bob; no_object; alice_knows_carol;
                       alice_knows_bob])
           "text" ["Alice"; "Bob"] false None true None).
  reflexivity.
Defined.

(** X9: no valid relation between known entities is lost: an item of the
    answer that validates and whose subject and object are both in the list
    of entities has its triple in the result. *)
Theorem get_relations_keeps_known dspy input_data entities is_conversation
    edge_types require_edge_type examples items item r :
  dspy (relations_signature edge_types is_conversation)
       (relations_params input_data entities edge_types require_edge_type
          examples)
    = Returned items →
  item ∈ items →
  validate_relation edge_types item = Returned r →
  rel_subject r ∈ entities → rel_object r ∈ entities →
  (rel_subject r, rel_predicate r, rel_object r)
    ∈ (get_relations dspy input_data entities is_conversation edge_types
         require_edge_type examples).1.1.
Proof.
  intros Hcall Hin Hv Hs Ho. unfold get_relations. rewrite Hcall.
  pose proof (collect_relations_run edge_types entities items [] ∅ [])
    as Hrun.
  destruct (collect_relations _ _ _ _ _ _) as [[rs m] lg].
  cbn in *. injection Hrun as -> _.
  apply list_elem_of_omap. exists item. split; [done|].
  unfold kept_triple. rewrite Hv.
  apply contains_elem_of in Hs as ->. by apply contains_elem_of in Ho as ->.
Qed.

Lemma get_relations_keeps_known_witness :
  ("Alice", "knows", "Bob")
    ∈ (get_relations (answering [no_object; alice_knows_bob]) "text"
         ["Alice"; "Bob"] false None true None).1.1.
Proof.
  apply (get_relations_keeps_known
           (answering [no_object; alice_knows_bob]) "text" ["Alice"; "Bob"]
           false None true None [no_object; alice_knows_bob] alice_knows_bob
           (Relation "Alice" "knows" "Bob")).
  - reflexivity.
  - vm_compute. right. left.
  - reflexivity.
  - vm_compute. left.
  - vm_compute. right. left.
Defined.

(** X10: the last assignment wins: when an item of a typed call validates
    with predicate [p] and a non-empty type [t] between known entities, and
    no later item does so for [p], the returned mapping sends [p] to [t]. *)
Theorem get_relations_type_last_wins dspy input_data entities is_conversation
    edge_types require_edge_type examples before item after s p o t :
  dspy (relations_signature edge_types is_conversation)
       (relations_params input_data entities edge_types require_edge_type
          examples)
    = Returned (before ++ item :: after) →
  given edge_types = true →
  validate_relation edge_types item
    = Returned (RelationWithType s p o (Some t)) →
  t ≠ "" → s ∈ entities → o ∈ entities →
  (∀ later s' o' t', later ∈ after →
     validate_relation edge_types later
       = Returned (RelationWithType s' p o' (Some t')) →
     s' ∈ entities → o' ∈ entities → t' = "") →
  ∃ edge_type_map,
    (get_relations dspy input_data entities is_conversation edge_types
       require_edge_type examples).1.2 = Some edge_type_map ∧
    edge_type_map !! p = Some t.
Proof.
  intros Hcall Hg Hv Hne Hs Ho Hafter. unfold get_relations.
  rewrite Hcall, Hg.
  pose proof (collect_relations_run edge_types entities
                (before ++ item :: after) [] ∅ []) as Hrun.
  destruct (collect_relations _ _ _ _ _ _) as [[rs m] lg].
  cbn in *. injection Hrun as _ ->. eexists. split; [done|].
  assert (Hrec : recorded_type edge_types entities item = Some (p, t)).
  { apply recorded_type_Some. split_and!; eauto. }
  rewrite omap_app. cbn. rewrite Hrec, foldl_app. cbn.
  rewrite foldl_insert_untouched; [apply lookup_insert_eq|].
  intros t' (later & Hin & Hlater)%list_elem_of_omap.
  apply recorded_type_Some in Hlater as (_ & Hne' & s' & o' & Hv' & ? & ?).
  by apply Hne', (Hafter later s' o').
Qed.

Lemma get_relations_type_last_wins_witness :
  ∃ edge_type_map,
    (get_relations
       (answering
          ([[("subject", PStr "Bob"); ("predicate", PStr "knows");
             ("object", PStr "Alice"); ("predicate_type", PStr "family")]]
           ++ alice_knows_bob :: [alice_knows_carol]))
       "text" ["Alice"; "Bob"] false (Some ["social"; "family"]) true
       None).1.2 = Some edge_type_map ∧
    edge_type_map !! "knows" = Some "social".
Proof.
  apply (get_relations_type_last_wins
           (answering
              ([[("subject", PStr "Bob"); ("predicate", PStr "knows");
                 ("object", PStr "Alice");
                 ("predicate_type", PStr "family")]]
               ++ alice_knows_bob :: [alice_knows_carol]))
           "text" ["Alice"; "Bob"] false (Some ["social"; "family"]) true
           None _ alice_knows_bob [alice_knows_carol] "Alice" "knows" "Bob"
           "social" eq_refl eq_refl eq_refl).
  - discriminate.
  - vm_compute. left.
  - vm_compute. right. left.
  - intros later s' o' t' Hin. apply list_elem_of_singleton in Hin as ->.
    vm_compute. discriminate.
Defined.

Lemma kept_triple_entities_mono edge_types entities entities' item t :
  (∀ x, x ∈ entities → x ∈ entities') →
  kept_triple edge_types entities item = Some t →
  kept_triple edge_types entities' item = Some t.
Proof.
  intros Hsub. unfold kept_triple.
  destruct (validate_relation edge_types item) as [r|e]; [|done].
  destruct (contains (rel_subject r) entities) eqn:Hs; [|done].
  destruct (contains (rel_object r) entities) eqn:Ho; [|done].
  apply contains_elem_of, Hsub, contains_elem_of in Hs as ->.
  by apply contains_elem_of, Hsub, contains_elem_of in Ho as ->.
Qed.

Lemma kept_triple_typed_plain edge_types edge_types' entities item t :
  given edge_types = true → given edge_types' = false →
  kept_triple edge_types entities item = Some t →
  kept_triple edge_types' entities item = Some t.
Proof.
  intros Hg Hg'. unfold kept_triple, validate_relation.
  rewrite Hg, Hg'. unfold new_RelationWithType, new_Relation.
  destruct (str_field item "subject"), (str_field item "predicate"),
    (str_field item "object"), (optional_str_field item "predicate_type");
    done.
Qed.

Lemma omap_all_None {A B : Type} (f : A → option B) (l : list A) :
  (∀ x, f x = None) → omap f l = [].
Proof.
  intros Hf. induction l as [|x l IH]; [done|]. cbn. by rewrite Hf.
Qed.

(** X11: a longer list of entities never loses a relation: on the same
    answer of the model, the relations returned for [entities] are, in
    order, among those returned for any list that contains [entities]. *)
Theorem get_relations_entities_mono dspy dspy' input_data entities entities'
    is_conversation edge_types require_edge_type examples items :
  (∀ x, x ∈ entities → x ∈ entities') →
  dspy (relations_signature edge_types is_conversation)
       (relations_params input_data entities edge_types require_edge_type
          examples)
    = Returned items →
  dspy' (relations_signature edge_types is_conversation)
        (relations_params input_data entities' edge_types require_edge_type
           examples)
    = Returned items →
  (get_relations dspy input_data entities is_conversation edge_types
     require_edge_type examples).1.1
  `sublist_of`
  (get_relations dspy' input_data entities' is_conversation edge_types
     require_edge_type examples).1.1.
Proof.
  intros Hsub Hcall Hcall'. unfold get_relations. rewrite Hcall, Hcall'.
  pose proof (collect_relations_run edge_types entities items [] ∅ [])
    as Hrun.
  pose proof (collect_relations_run edge_types entities' items [] ∅ [])
    as Hrun'.
  destruct (collect_relations _ entities _ _ _ _) as [[rs m] lg].
  destruct (collect_relations _ entities' _ _ _ _) as [[rs' m'] lg'].
  cbn in *. injection Hrun as -> _. injection Hrun' as -> _.
  apply omap_sublist. intros item t _.
  by apply kept_triple_entities_mono.
Qed.

Lemma get_relations_entities_mono_witness :
  (get_relations (answering [alice_knows_bob; alice_knows_carol]) "text"
     ["Alice"; "Bob"] false None true None).1.1
  `sublist_of`
  (get_relations (answering [alice_knows_bob; alice_knows_carol]) "text"
     ["Carol"; "Bob"; "Alice"] false None true None).1.1.
Proof.
  apply (get_relations_entities_mono
           (answering [alice_knows_bob; alice_knows_carol])
           (answering [alice_knows_bob; alice_knows_carol])
           "text" ["Alice"; "Bob"] ["Carol"; "Bob"; "Alice"] false None true
           None [alice_knows_bob; alice_knows_carol]).
  - intros x Hx. apply elem_of_cons in Hx as [->|Hx].
    + right. right. left.
    + apply list_elem_of_singleton in Hx as ->. right. left.
  - reflexivity.
  - reflexivity.
Defined.

(** X12: asking for predicate types never adds a relation: on the same
    answer of the model, the relations of a call with [edge_types] are, in
    order, among those of a call without. *)
Theorem get_relations_typed_among_plain dspy dspy' input_data entities
    is_conversation edge_types edge_types' require_edge_type examples items :
  given edge_types = true → given edge_types' = false →
  dspy (relations_signature edge_types is_conversation)
       (relations_params input_data entities edge_types require_edge_type
          examples)
    = Returned items →
  dspy' (relations_signature edge_types' is_conversation)
        (relations_params input_data entities edge_types' require_edge_type
           examples)
    = Returned items →
  (get_relations dspy input_data entities is_conversation edge_types
     require_edge_type examples).1.1
  `sublist_of`
  (get_relations dspy' input_data entities is_conversation edge_types'
     require_edge_type examples).1.1.
Proof.
  intros Hg Hg' Hcall Hcall'. unfold get_relations. rewrite Hcall, Hcall'.
  pose proof (collect_relations_run edge_types entities items [] ∅ [])
    as Hrun.
  pose proof (collect_relations_run edge_types' entities items [] ∅ [])
    as Hrun'.
  destruct (collect_relations edge_types _ _ _ _ _) as [[rs m] lg].
  destruct (collect_relations edge_types' _ _ _ _ _) as [[rs' m'] lg'].
  cbn in *. injection Hrun as -> _. injection Hrun' as -> _.
  apply omap_sublist. intros item t _.
  by apply kept_triple_typed_plain.
Qed.

Lemma get_relations_typed_among_plain_witness :
  (get_relations
     (answering
        [[("subject", PStr "Alice"); ("predicate", PStr "knows");
          ("object", PStr "Bob"); ("predicate_type", PInt 7)];
         alice_knows_bob])
     "text" ["Alice"; "Bob"] false (Some ["social"]) true None).1.1
  `sublist_of`
  (get_relations
     (answering
        [[("subject", PStr "Alice"); ("predicate", PStr "knows");
          ("object", PStr "Bob"); ("predicate_type", PInt 7)];
         alice_knows_bob])
     "text" ["Alice"; "Bob"] false None true None).1.1.
Proof.
  apply (get_relations_typed_among_plain
           (answering
              [[("subject", PStr "Alice"); ("predicate", PStr "knows");
                ("object", PStr "Bob"); ("predicate_type", PInt 7)];
               alice_knows_bob])
           (answering
              [[("subject", PStr "Alice"); ("predicate", PStr "knows");
                ("object", PStr "Bob"); ("predicate_type", PInt 7)];
               alice_knows_bob])
           "text" ["Alice"; "Bob"] false (Some ["social"]) None true None
           _ eq_refl eq_refl eq_refl eq_refl).
Defined.

(** X13: with an empty list of entities [get_relations] returns no
    relation, whatever the model answers, and the mapping of a typed call
    that returns is the empty dictionary. *)
Theorem get_relations_no_entities dspy input_data is_conversation edge_types
    require_edge_type examples :
  (get_relations dspy input_data [] is_conversation edge_types
     require_edge_type examples).1
  = ([], match dspy (relations_signature edge_types is_conversation)
                 (relations_params input_data [] edge_types
                    require_edge_type examples) with
         | Returned _ => if given edge_types then Some ∅ else None
         | Raised _ => None
         end).
Proof.
  unfold get_relations. destruct (dspy _ _) as [items|e]; [|done].
  pose proof (collect_relations_run edge_types [] items [] ∅ []) as Hrun.
  destruct (collect_relations _ _ _ _ _ _) as [[rs m] lg].
  cbn in *. injection Hrun as -> ->.
  rewrite !omap_all_None; [done| |].
  - intros item. unfold recorded_type.
    by destruct (validate_relation edge_types item).
  - intros item. unfold kept_triple.
    by destruct (validate_relation edge_types item).
Qed.

Lemma kept_or_rejected edge_types entities (items : list pydict) :
  (length (omap (kept_triple edge_types entities) items)
   + length (rejections edge_types items) ≤ length items)%nat.
Proof.
  unfold rejections.
  induction items as [|item rest IH]; [done|].
  cbn [omap list_omap flat_map]. unfold kept_triple at 1, rejection at 1.
  destruct (validate_relation edge_types item) as [r|e]; cbn.
  - destruct (_ && _); cbn; lia.
  - lia.
Qed.

(** X14: no item of the answer gives both a relation and a warning: the
    relations returned and the warnings logged are together at most as
    many as the items. *)
Theorem get_relations_accounting dspy input_data entities is_conversation
    edge_types require_edge_type examples items :
  dspy (relations_signature edge_types is_conversation)
       (relations_params input_data entities edge_types require_edge_type
          examples)
    = Returned items →
  let run :=
    get_relations dspy input_data entities is_conversation edge_types
      require_edge_type examples in
  (length run.1.1 + length run.2 ≤ length items)%nat.
Proof.
  intros Hcall run. subst run. unfold get_relations. rewrite Hcall.
  pose proof (collect_relations_run edge_types entities items [] ∅ [])
    as Hrun.
  pose proof (collect_relations_log edge_types entities items [] ∅ [])
    as Hlog.
  destruct (collect_relations _ _ _ _ _ _) as [[rs m] lg].
  cbn in *. injection Hrun as -> _. subst lg.
  apply kept_or_rejected.
Qed.

Lemma get_relations_accounting_witness :
  let run :=
    get_relations (answering [alice_knows_bob; no_object; alice_knows_carol])
      "text" ["Alice"; "Bob"] false None true None in
  (length run.1.1 + length run.2
   ≤ length [alice_knows_bob; no_object; alice_knows_carol])%nat.
Proof.
  apply (get_relations_accounting
           (answering [alice_knows_bob; no_object; alice_knows_carol])
           "text" ["Alice"; "Bob"] false None true None).
  reflexivity.
Defined.
